(** * Sinestinseut: from HSV colour samples to a 16-bit PCM signal

    A shallow embedding of the synthesis core of [app.py]
    ([hue_to_frequency], [generate_waveform], [generate_sound_from_data])
    and the properties of it that the specification states.

    Number model.  The samples of the program are numpy [float64] values.
    They are embedded as real numbers ([R]): every arithmetic operation is
    the exact one, and there is neither [nan] nor [inf].  What the program
    does with integers (sample counts, the [int16] samples) is embedded in
    [Z].  Module [Binary64] re-evaluates, in IEEE binary64, the scalar
    computations on the literal constants of the program, to show that the
    verdicts reached on real numbers are those of the floating-point run. *)

From Stdlib Require Import Reals Lra Lia ZArith List String Bool.
From Stdlib Require Import Floats.
Import ListNotations.

Set Warnings "-inexact-float,-register-all".

(** ** Python and numpy primitives *)

Module Py.

(** The exceptions the core can meet.  [ZeroDivision] is a monitor: numpy
    answers a division of an array by the scalar [0.0] with [inf]/[nan]
    and a warning; real numbers have neither value, so the model reports
    that division, which makes "never divides by zero" a property of the
    result. *)
Inductive exn : Set :=
| ValueError
| ZeroDivision.

Inductive result (A : Type) : Type :=
| Ok (a : A)
| Raise (e : exn).
Arguments Ok {A} a.
Arguments Raise {A} e.

Definition bind {A B : Type} (m : result A) (k : A -> result B) : result B :=
  match m with
  | Ok a => k a
  | Raise e => Raise e
  end.

Local Open Scope R_scope.

(** [int(x)] on a float: truncation toward zero. *)
Definition int (x : R) : Z :=
  if Rle_dec 0 x then Int_part x else (- Int_part (- x))%Z.

(** [np.floor]. *)
Definition floor (x : R) : R := IZR (Int_part x).

(** [np.sign]: -1, 0 or 1. *)
Definition sign (x : R) : R :=
  if Rlt_dec 0 x then 1 else if Rlt_dec x 0 then -1 else 0.

(** [np.linspace(start, stop, num, endpoint=False)]: [num] instants
    [start + i * step], [step = (stop - start) / num]; a negative [num]
    raises [ValueError]. *)
Definition linspace (start stop : R) (num : Z) : result (list R) :=
  if (num <? 0)%Z then Raise ValueError
  else
    let step := (stop - start) / IZR num in
    Ok (map (fun i => INR i * step + start) (seq 0 (Z.to_nat num))).

(** [np.zeros_like]. *)
Definition zeros_like (t : list R) : list R := map (fun _ => 0) t.

(** [np.abs] on an array. *)
Definition abs (a : list R) : list R := map Rabs a.

(** [np.max]: raises [ValueError] on an empty array. *)
Definition max (a : list R) : result R :=
  match a with
  | [] => Raise ValueError
  | x :: xs => Ok (fold_left Rmax xs x)
  end.

(** [a /= d] for an array [a] and a scalar [d]. *)
Definition divide (a : list R) (d : R) : result (list R) :=
  if Req_dec_T d 0 then Raise ZeroDivision
  else Ok (map (fun x => x / d) a).

(** A 16-bit two's complement integer, as [Z] with its wrap-around. *)
Definition wrap16 (z : Z) : Z := ((z + 32768) mod 65536 - 32768)%Z.

(** [np.int16(a)] on a float array: each element is cast, that is
    truncated toward zero and kept on 16 bits. *)
Definition int16 (a : list R) : list Z := map (fun x => wrap16 (int x)) a.

End Py.

Notation "x <- m ;; k" := (Py.bind m (fun x => k))
  (at level 61, m at next level, right associativity).

(** ** The program *)

Module App.
Import Py.
Local Open Scope R_scope.
Local Open Scope string_scope.

Definition SAMPLE_RATE : Z := 44100.
Definition DURATION_PER_SLICE : R := 5 / 100.

Definition A4 : R := 440.
Definition C4 : R := A4 * Rpower 2 (- 9 / 12).

Definition hue_to_frequency (hue : R) : R :=
  let semitones := (hue / 360) * 12 in
  let frequency := C4 * Rpower 2 (semitones / 12) in
  frequency.

Definition generate_waveform (frequency duration : R) (wave_type : string)
  : result (list R) :=
  let num_samples := int (IZR SAMPLE_RATE * duration) in
  t <- linspace 0 duration num_samples ;;
  if wave_type =? "sine" then
    Ok (map (fun ti => sin (2 * PI * frequency * ti)) t)
  else if wave_type =? "square" then
    Ok (map (fun ti => sign (sin (2 * PI * frequency * ti))) t)
  else if wave_type =? "triangle" then
    Ok (map (fun ti =>
               2 * Rabs (2 * (ti * frequency
                              - floor (ti * frequency + 5 / 10))) - 1)
            t)
  else
    Ok (zeros_like t).

(** The timbre test of the loop body: saturation to waveform name. *)
Definition wave_type_of (s : R) : string :=
  if Rlt_dec s (33 / 100) then "sine"
  else if Rlt_dec s (67 / 100) then "triangle"
  else "square".

(** A colour sample [(h, s, v)]. *)
Definition hsv : Type := R * R * R.

(** The loop of [generate_sound_from_data]: one scaled segment per
    sample, appended to [audio_signal] in input order.  ([audio_signal]
    starts as an empty [float32] array; [np.concatenate] with a [float64]
    segment gives a [float64] array from the first iteration on.) *)
Fixpoint assemble (drawing_data : list hsv) (audio_signal : list R)
  : result (list R) :=
  match drawing_data with
  | [] => Ok audio_signal
  | (h, s, v) :: rest =>
      let freq := hue_to_frequency h in
      let wave_type := wave_type_of s in
      let amplitude := v * (5 / 10) in
      segment <- generate_waveform freq DURATION_PER_SLICE wave_type ;;
      assemble rest (audio_signal ++ map (fun x => x * amplitude) segment)
  end.

(** "Normaliza o sinal final". *)
Definition normalize (audio_signal : list R) : result (list R) :=
  if (0 <? List.length audio_signal)%nat then
    max_amplitude <- Py.max (Py.abs audio_signal) ;;
    if Rlt_dec 0 max_amplitude then divide audio_signal max_amplitude
    else Ok audio_signal
  else Ok audio_signal.

(** "Converte para formato de 16 bits". *)
Definition quantize (audio_signal : list R) : list Z :=
  int16 (map (fun x => x * 32767) audio_signal).

(** The samples handed to [write_wav]. *)
Definition int_audio (drawing_data : list hsv) : result (list Z) :=
  audio_signal <- assemble drawing_data [] ;;
  audio_signal <- normalize audio_signal ;;
  Ok (quantize audio_signal).

(** The files of the server: path to (sample rate, samples). *)
Record wav : Type := Wav { rate : Z; frames : list Z }.
Definition files : Type := string -> option wav.

Definition write_wav (path : string) (r : Z) (data : list Z) (fs : files)
  : files :=
  fun p => if p =? path then Some (Wav r data) else fs p.

Section Server.
(** [app.root_path]. *)
Variable root_path : string.

Definition output_path : string := root_path ++ "/static/output.wav".

Definition generate_sound_from_data (drawing_data : list hsv) (fs : files)
  : result (string * files) :=
  data <- int_audio drawing_data ;;
  Ok ("output.wav", write_wav output_path SAMPLE_RATE data fs).
End Server.

End App.

(** ** The scalar computations in IEEE binary64 *)

Module Binary64.
Local Open Scope float_scope.

Definition SAMPLE_RATE : float := 44100.
Definition DURATION_PER_SLICE : float := 0.05.

(** [int(x)] on a binary64 value: truncation toward zero; [nan] and the
    infinities have no integer value (Python raises). *)
Definition int (x : float) : option Z :=
  match Prim2SF x with
  | S754_zero _ => Some 0%Z
  | S754_finite sgn m e =>
      let a := if (0 <=? e)%Z then (Z.pos m * 2 ^ e)%Z
               else (Z.pos m / 2 ^ (- e))%Z in
      Some (if sgn then (- a)%Z else a)
  | S754_infinity _ => None
  | S754_nan => None
  end.

(** [int(SAMPLE_RATE * duration)] of [generate_waveform]. *)
Definition num_samples (duration : float) : option Z :=
  int (SAMPLE_RATE * duration).

(** The exponent [semitones / 12] of [hue_to_frequency]. *)
Definition octaves (hue : float) : float :=
  let semitones := (hue / 360) * 12 in
  semitones / 12.

(** The timbre test of [generate_sound_from_data]. *)
Definition wave_type_of (s : float) : string :=
  if s <? 0.33 then "sine"%string
  else if s <? 0.67 then "triangle"%string
  else "square"%string.

(** One sample of [np.int16(audio_signal * 32767)]. *)
Definition quantize1 (x : float) : option Z :=
  option_map Py.wrap16 (int (x * 32767)).

End Binary64.

(** ** Rounding rules

    [nearest] follows the words of the specification ("round", "nearest");
    [truncation] is what a cast to an integer type does. *)

Module Rounding.
Local Open Scope R_scope.


(** Truncation toward zero: [z] has the sign of [y] and is the integer
    part of its magnitude. *)
Definition truncation (y : R) (z : Z) : Prop :=
  (IZR (Z.abs z) <= Rabs y < IZR (Z.abs z) + 1) /\
  (0 <= y -> (0 <= z)%Z) /\ (y <= 0 -> (z <= 0)%Z).

End Rounding.

(** ** The web layer

    The route [/generate-sound] hands [generate_sound_from_data] whatever
    JSON value the request carries, so the loop of that function is modelled
    a second time on untyped values; [/audio/<filename>] serves what was
    written. *)

Module Web.
Import Py App.
Local Open Scope R_scope.
Local Open Scope string_scope.

(** A decoded JSON value.  An object is the [dict] the decoder returns: a
    key occurs once, and the first binding of the list is the one looked
    up. *)
Inductive json : Type :=
| JNull
| JBool (b : bool)
| JNum (x : R)
| JStr (s : string)
| JArr (items : list json)
| JObj (fields : list (string * json)).

(** What the body of the route can raise: [request.json] without a JSON
    body, [data.get] on a value that is not a [dict], a number expected and
    something else found, and the exceptions of the synthesis (unpacking a
    sequence that has not three elements is a [ValueError] too). *)
Inductive raised : Set :=
| BadRequest
| AttributeError
| TypeError
| Core (e : Py.exn).

Inductive outcome (A : Type) : Type :=
| Return (a : A)
| Except (e : raised).
Arguments Return {A} a.
Arguments Except {A} e.

Definition and_then {A B : Type} (m : outcome A) (k : A -> outcome B)
  : outcome B :=
  match m with
  | Return a => k a
  | Except e => Except e
  end.

Definition lift {A : Type} (m : result A) : outcome A :=
  match m with
  | Ok a => Return a
  | Raise e => Except (Core e)
  end.

(** [not v] is [negb (truthy v)]. *)
Definition truthy (v : json) : bool :=
  match v with
  | JNull => false
  | JBool b => b
  | JNum x => if Req_dec_T x 0 then false else true
  | JStr s => negb (s =? "")
  | JArr items => match items with [] => false | _ :: _ => true end
  | JObj fields => match fields with [] => false | _ :: _ => true end
  end.

(** What [for ... in v] goes through: the elements of a list, the
    characters of a string, the keys of a dict. *)
Definition iter (v : json) : outcome (list json) :=
  match v with
  | JArr items => Return items
  | JStr s =>
      Return (map (fun c => JStr (String c EmptyString))
                  (list_ascii_of_string s))
  | JObj fields => Return (map (fun kv => JStr (fst kv)) fields)
  | JNull | JBool _ | JNum _ => Except TypeError
  end.

(** The target [h, s, v] of the loop. *)
Definition unpack3 (item : json) : outcome (json * json * json) :=
  and_then (iter item) (fun elems =>
    match elems with
    | [h; s; v] => Return (h, s, v)
    | _ => Except (Core ValueError)
    end).

(** A value used in float arithmetic or compared with a float: a number,
    or a boolean taken as 0 or 1. *)
Definition number (v : json) : outcome R :=
  match v with
  | JNum x => Return x
  | JBool b => Return (if b then 1 else 0)
  | JNull | JStr _ | JArr _ | JObj _ => Except TypeError
  end.

(** The loop of [generate_sound_from_data] on untyped elements. *)
Fixpoint assemble_items (items : list json) (audio_signal : list R)
  : outcome (list R) :=
  match items with
  | [] => Return audio_signal
  | item :: rest =>
      and_then (unpack3 item) (fun '(h, s, v) =>
      and_then (number h) (fun h =>
      let freq := hue_to_frequency h in
      and_then (number s) (fun s =>
      let wave_type := wave_type_of s in
      and_then (number v) (fun v =>
      let amplitude := v * (5 / 10) in
      and_then (lift (generate_waveform freq DURATION_PER_SLICE wave_type))
        (fun segment =>
      assemble_items rest
        (audio_signal ++ map (fun x => x * amplitude) segment))))))
  end.



(** The reply of a route: the JSON body (the text of an error is kept as
    the exception it prints) and the status code. *)
Inductive body : Type :=
| Success (filename : string)
| NoData
| Failure (e : raised).

Record response : Type := Response { content : body; status : Z }.

(** [data.get(key)]: [None] when the key is missing. *)
Definition get (data : json) (key : string) : outcome json :=
  match data with
  | JObj fields =>
      Return (match find (fun kv => fst kv =? key) fields with
              | Some kv => snd kv
              | None => JNull
              end)
  | JNull | JBool _ | JNum _ | JStr _ | JArr _ => Except AttributeError
  end.


Section Server.
(** [app.root_path]. *)
Variable root_path : string.

(** [generate_sound_from_data] as the route calls it. *)
Definition generate_sound_from_json (drawing_data : json) (fs : files)
  : outcome (string * files) :=
  and_then (iter drawing_data) (fun items =>
  and_then (assemble_items items []) (fun audio_signal =>
  and_then (lift (normalize audio_signal)) (fun audio_signal =>
  let int_audio := quantize audio_signal in
  Return ("output.wav",
          write_wav (output_path root_path) SAMPLE_RATE int_audio fs)))).

(** The route [/generate-sound]; [request_json] is [None] when
    [request.json] raises. *)
Definition handle_drawing_data (request_json : option json) (fs : files)
  : response * files :=
  let attempt :=
    and_then (match request_json with
              | Some data => Return data
              | None => Except BadRequest
              end) (fun data =>
    and_then (get data "drawing_data") (fun drawing_data =>
    if negb (truthy drawing_data) then Return (Response NoData 400, fs)
    else
      and_then (generate_sound_from_json drawing_data fs)
        (fun '(filename, fs') =>
      Return (Response (Success filename) 200, fs')))) in
  match attempt with
  | Return reply => reply
  | Except e => (Response (Failure e) 500, fs)
  end.

(** werkzeug's [safe_join], which [send_from_directory] resolves the
    requested name with; [None] is a refused name. *)
Variable safe_join : string -> string -> option string.

End Server.

End Web.

(** ** Facts about the primitives *)

Module PyFacts.
Import Py.
Local Open Scope R_scope.

Lemma Int_part_IZR (z : Z) : Int_part (IZR z) = z.
Proof. symmetry. apply Int_part_spec. lra. Qed.

Lemma int_IZR (z : Z) : int (IZR z) = z.
Proof.
  unfold int. destruct (Rle_dec 0 (IZR z)) as [_ | _].
  - apply Int_part_IZR.
  - rewrite <- opp_IZR, Int_part_IZR. lia.
Qed.

Lemma Int_part_nonneg (x : R) : 0 <= x -> (0 <= Int_part x)%Z.
Proof.
  intros Hx. destruct (base_Int_part x) as [_ Hlo].
  assert (H : (-1 < Int_part x)%Z) by (apply lt_IZR; lra).
  lia.
Qed.

(** [int] is the truncation toward zero. *)
Lemma int_truncation (y : R) : Rounding.truncation y (int y).
Proof.
  unfold Rounding.truncation, int.
  destruct (Rle_dec 0 y) as [Hy | Hy].
  - pose proof (Int_part_nonneg y Hy) as Hn.
    destruct (base_Int_part y) as [Hle Hlt].
    rewrite Z.abs_eq by exact Hn. rewrite Rabs_pos_eq by exact Hy.
    repeat split; try lra; intros H0; [exact Hn | apply le_IZR; lra].
  - assert (Hy' : 0 <= - y) by lra.
    pose proof (Int_part_nonneg (- y) Hy') as Hn.
    destruct (base_Int_part (- y)) as [Hle Hlt].
    rewrite Z.abs_opp, Z.abs_eq by exact Hn.
    rewrite <- Rabs_Ropp, Rabs_pos_eq by exact Hy'.
    repeat split; try lra; intros _; lia.
Qed.

Lemma wrap16_id (z : Z) : (-32768 <= z <= 32767)%Z -> wrap16 z = z.
Proof. intros Hz. unfold wrap16. rewrite Z.mod_small; lia. Qed.

(** A sample of magnitude at most 1 is cast without wrap-around. *)
Lemma int_scaled_range (x : R) :
  Rabs x <= 1 -> (-32767 <= int (x * 32767) <= 32767)%Z.
Proof.
  intros Hx.
  destruct (int_truncation (x * 32767)) as [[Hlo _] _].
  assert (Hm : Rabs (x * 32767) <= 32767).
  { rewrite Rabs_mult, (Rabs_pos_eq 32767) by lra.
    pose proof (Rabs_pos x). nra. }
  assert (Ha : (Z.abs (int (x * 32767)) <= 32767)%Z) by (apply le_IZR; lra).
  lia.
Qed.

Lemma fold_max_ge_init (xs : list R) (x : R) : x <= fold_left Rmax xs x.
Proof.
  revert x. induction xs as [| y ys IH]; intros x; simpl.
  - lra.
  - eapply Rle_trans; [apply (Rmax_l x y) | apply IH].
Qed.

Lemma fold_max_ge (xs : list R) (x y : R) :
  In y xs -> y <= fold_left Rmax xs x.
Proof.
  revert x. induction xs as [| z zs IH]; intros x Hin; simpl in *.
  - contradiction.
  - destruct Hin as [-> | Hin].
    + eapply Rle_trans; [apply (Rmax_r x y) | apply fold_max_ge_init].
    + apply IH, Hin.
Qed.

Lemma fold_max_in (xs : list R) (x : R) : In (fold_left Rmax xs x) (x :: xs).
Proof.
  revert x. induction xs as [| y ys IH]; intros x; simpl.
  - now left.
  - destruct (IH (Rmax x y)) as [H | H].
    + rewrite <- H.
      destruct (Rle_dec x y) as [Hxy | Hxy].
      * rewrite Rmax_right by exact Hxy. right; left; reflexivity.
      * rewrite Rmax_left by lra. left; reflexivity.
    + right; right; exact H.
Qed.

(** Scaling by a positive constant commutes with the maximum. *)
Lemma fold_max_scale (c : R) (xs : list R) (x : R) :
  0 < c ->
  fold_left Rmax (map (fun y => y / c) xs) (x / c) = fold_left Rmax xs x / c.
Proof.
  intros Hc. revert x. induction xs as [| y ys IH]; intros x; simpl.
  - reflexivity.
  - rewrite <- IH. f_equal.
    unfold Rdiv. rewrite !(Rmult_comm _ (/ c)).
    apply RmaxRmult. left. now apply Rinv_0_lt_compat.
Qed.

Lemma linspace_length (a b : R) (n : Z) (t : list R) :
  linspace a b n = Ok t -> List.length t = Z.to_nat n.
Proof.
  unfold linspace. destruct (n <? 0)%Z; intros H; inversion H.
  now rewrite length_map, length_seq.
Qed.

End PyFacts.

(** ** Facts about the program *)

Module AppFacts.
Import Py App PyFacts.
Local Open Scope R_scope.

(** [int(SAMPLE_RATE * DURATION_PER_SLICE)]: the product is the integer
    2205 itself, so truncating or rounding it makes no difference. *)
Lemma slice_product : IZR SAMPLE_RATE * DURATION_PER_SLICE = 2205.
Proof. unfold SAMPLE_RATE, DURATION_PER_SLICE. lra. Qed.

Lemma num_samples_slice : int (IZR SAMPLE_RATE * DURATION_PER_SLICE) = 2205%Z.
Proof. rewrite slice_product. apply int_IZR. Qed.

Lemma linspace_ok (a b : R) (n : Z) :
  (0 <= n)%Z ->
  linspace a b n =
  Ok (map (fun i => INR i * ((b - a) / IZR n) + a) (seq 0 (Z.to_nat n))).
Proof.
  intros Hn. unfold linspace.
  destruct (Z.ltb_spec n 0) as [Hlt | _]; [lia | reflexivity].
Qed.

(** Whatever the waveform name, the segment is computed point by point
    from the time axis, and fails only if the time axis does. *)
Lemma generate_waveform_pointwise (f d : R) (w : string) :
  exists g : R -> R,
    generate_waveform f d w =
    Py.bind (linspace 0 d (int (IZR SAMPLE_RATE * d))) (fun t => Ok (map g t)).
Proof.
  unfold generate_waveform, zeros_like.
  destruct (w =? "sine")%string; [eexists; reflexivity |].
  destruct (w =? "square")%string; [eexists; reflexivity |].
  destruct (w =? "triangle")%string; eexists; reflexivity.
Qed.

Lemma slice_segment (f : R) (w : string) :
  exists seg, generate_waveform f DURATION_PER_SLICE w = Ok seg /\
              List.length seg = 2205%nat.
Proof.
  destruct (generate_waveform_pointwise f DURATION_PER_SLICE w) as [g Hg].
  rewrite Hg, num_samples_slice, linspace_ok by lia. cbn [Py.bind].
  eexists; split; [reflexivity |].
  now rewrite !length_map, length_seq.
Qed.

Lemma assemble_ok (drawing_data : list hsv) (acc : list R) :
  exists sig, assemble drawing_data acc = Ok sig /\
              List.length sig =
              (List.length acc + List.length drawing_data * 2205)%nat.
Proof.
  revert acc. induction drawing_data as [| [[h s] v] rest IH]; intros acc.
  - exists acc. split; [reflexivity | simpl; lia].
  - cbn [assemble].
    destruct (slice_segment (hue_to_frequency h) (wave_type_of s))
      as (seg & Hseg & Hlen).
    rewrite Hseg. cbn [Py.bind].
    destruct (IH (acc ++ map (fun x => x * (v * (5 / 10))) seg)%list)
      as (sig & Hsig & Hl).
    exists sig. split; [exact Hsig |].
    rewrite Hl, length_app, length_map, Hlen. simpl. lia.
Qed.

(** The peak [np.max(np.abs(a))] of a non-empty array bounds every
    magnitude and is reached. *)
Lemma peak_spec (a : list R) (p : R) :
  Py.max (Py.abs a) = Ok p ->
  (forall y, In y a -> Rabs y <= p) /\ (exists y, In y a /\ Rabs y = p).
Proof.
  destruct a as [| x xs]; [discriminate |].
  cbn [Py.abs map Py.max]. intros H; inversion H as [Hp]; clear H. split.
  - intros y [-> | Hin].
    + apply fold_max_ge_init.
    + apply fold_max_ge. now apply in_map.
  - pose proof (fold_max_in (map Rabs xs) (Rabs x)) as [H | H].
    + exists x. split; [now left | exact H].
    + apply in_map_iff in H as (y & Hy & Hin).
      exists y. split; [now right | exact Hy].
Qed.

Lemma peak_nonneg (a : list R) (p : R) : Py.max (Py.abs a) = Ok p -> 0 <= p.
Proof.
  intros H. destruct (peak_spec a p H) as [_ (y & _ & <-)]. apply Rabs_pos.
Qed.

(** The three ways through the normalisation step. *)
Lemma normalize_cases (sig : list R) :
  (sig = [] /\ normalize sig = Ok sig) \/
  (Py.max (Py.abs sig) = Ok 0 /\ normalize sig = Ok sig) \/
  (exists p, 0 < p /\ Py.max (Py.abs sig) = Ok p /\
             normalize sig = Ok (map (fun x => x / p) sig)).
Proof.
  destruct sig as [| x xs]; [left; split; reflexivity | right].
  unfold normalize. cbn [List.length Nat.ltb Nat.leb].
  destruct (Py.max (Py.abs (x :: xs))) as [p |] eqn:Hp; [| discriminate].
  cbn [Py.bind].
  destruct (Rlt_dec 0 p) as [Hpos | Hnpos].
  - right. exists p. split; [exact Hpos | split; [reflexivity |]].
    unfold divide. destruct (Req_dec_T p 0) as [H0 | _]; [lra | reflexivity].
  - left. pose proof (peak_nonneg _ _ Hp).
    assert (p = 0) as -> by lra. split; reflexivity.
Qed.

(** Normalisation always returns, keeps the length, and leaves no
    sample of magnitude above 1. *)
Lemma normalize_ok (sig : list R) :
  exists sig', normalize sig = Ok sig' /\
               List.length sig' = List.length sig /\
               Forall (fun x => Rabs x <= 1) sig'.
Proof.
  destruct (normalize_cases sig)
    as [[-> Hn] | [[Hp Hn] | (p & Hpos & Hp & Hn)]].
  - exists []. split; [exact Hn | split; [reflexivity | constructor]].
  - exists sig. split; [exact Hn | split; [reflexivity |]].
    apply Forall_forall. intros y Hy.
    destruct (peak_spec sig 0 Hp) as [Hb _]. specialize (Hb y Hy). lra.
  - exists (map (fun x => x / p) sig).
    split; [exact Hn | split; [apply length_map |]].
    apply Forall_forall. intros z Hz.
    apply in_map_iff in Hz as (y & <- & Hy).
    destruct (peak_spec sig p Hp) as [Hb _]. specialize (Hb y Hy).
    unfold Rdiv. rewrite Rabs_mult, (Rabs_pos_eq (/ p)).
    + apply (Rmult_le_reg_r p); [exact Hpos |].
      rewrite Rmult_assoc, Rinv_l by lra. lra.
    + left. now apply Rinv_0_lt_compat.
Qed.



(** The whole computation of the samples returns, for every input. *)
Lemma int_audio_ok (drawing_data : list hsv) :
  exists sig sig',
    assemble drawing_data [] = Ok sig /\
    normalize sig = Ok sig' /\
    int_audio drawing_data = Ok (quantize sig') /\
    List.length sig = (List.length drawing_data * 2205)%nat /\
    List.length sig' = List.length sig /\
    Forall (fun x => Rabs x <= 1) sig'.
Proof.
  destruct (assemble_ok drawing_data []) as (sig & Ha & Hl).
  destruct (normalize_ok sig) as (sig' & Hn & Hl' & Hb).
  exists sig, sig'. unfold int_audio. rewrite Ha. cbn [Py.bind].
  rewrite Hn. cbn [Py.bind]. simpl in Hl. auto 10.
Qed.

End AppFacts.

(** ** Cross-checks in binary64 *)

Module Binary64Facts.
Import Binary64.
Local Open Scope float_scope.

(** [44100 * 0.05] is the double [2205.0], and [int] of it is 2205. *)
Lemma slice_product_binary64 : SAMPLE_RATE * DURATION_PER_SLICE = 2205.
Proof. vm_compute. reflexivity. Qed.

Lemma num_samples_slice_binary64 : num_samples DURATION_PER_SLICE = Some 2205%Z.
Proof. vm_compute. reflexivity. Qed.

(** The exponent of [2 ** _] is exactly [0.0] at hue 0 and [1.0] at hue 360. *)
Lemma octaves_at_hue_0 : octaves 0 = 0.
Proof. vm_compute. reflexivity. Qed.

Lemma octaves_at_hue_360 : octaves 360 = 1.
Proof. vm_compute. reflexivity. Qed.

(** The timbre test on the five boundary literals. *)
Lemma wave_type_of_literals :
  wave_type_of 0.329 = "sine"%string /\
  wave_type_of 0.33 = "triangle"%string /\
  wave_type_of 0.669 = "triangle"%string /\
  wave_type_of 0.67 = "square"%string /\
  wave_type_of 1 = "square"%string.
Proof. vm_compute. repeat split. Qed.

(** [0.25 * 32767] is the double [8191.75]; the cast gives 8191. *)
Lemma quantize1_quarter :
  0.25 * 32767 = 8191.75 /\ quantize1 0.25 = Some 8191%Z.
Proof. vm_compute. split; reflexivity. Qed.

Lemma quantize1_extremes :
  quantize1 1 = Some 32767%Z /\ quantize1 (-1) = Some (-32767)%Z /\
  quantize1 0 = Some 0%Z.
Proof. vm_compute. repeat split. Qed.

End Binary64Facts.

(** ** The claims of the specification *)

Import Py App PyFacts AppFacts.
Local Open Scope R_scope.

(** *** Pitch *)

Lemma C4_fourth_power : (C4 / 440) ^ 4 = / 8.
Proof.
  unfold C4, A4.
  replace (440 * Rpower 2 (- 9 / 12) / 440) with (Rpower 2 (- 9 / 12))
    by (field; lra).
  rewrite <- (Rpower_pow 4) by apply exp_pos.
  rewrite Rpower_mult.
  replace (- 9 / 12 * INR 4) with (- INR 3) by (simpl; lra).
  rewrite Rpower_Ropp, Rpower_pow by lra. f_equal. lra.
Qed.

Lemma C4_bounds : 261 < C4 < 262.
Proof.
  pose proof C4_fourth_power as H4.
  assert (Hpos : 0 < C4).
  { unfold C4, A4. apply Rmult_lt_0_compat; [lra | apply exp_pos]. }
  set (c := C4) in *.
  assert (Hq : (c * c) * (c * c) = 4685120000) by (field_simplify in H4; nra).
  split.
  - destruct (Rlt_le_dec 261 c) as [H | H]; [exact H | exfalso].
    assert (c * c <= 68121) by nra. nra.
  - destruct (Rlt_le_dec c 262) as [H | H]; [exact H | exfalso].
    assert (68644 <= c * c) by nra. nra.
Qed.

(** C1. At hue 360 [hue_to_frequency] returns twice what it returns at hue
    0: hue 0 gives C4 (between 261 and 262 Hz) and hue 360 gives 2 * C4,
    one octave above.  The mapping has no wrap-around; the two frequencies
    differ by more than 261 Hz. *)
Theorem hue_360_is_one_octave_above_hue_0 :
  hue_to_frequency 0 = C4 /\
  hue_to_frequency 360 = 2 * hue_to_frequency 0 /\
  261 < hue_to_frequency 360 - hue_to_frequency 0.
Proof.
  assert (H0 : hue_to_frequency 0 = C4).
  { unfold hue_to_frequency.
    replace (0 / 360 * 12 / 12) with 0 by lra.
    rewrite Rpower_O by lra. lra. }
  assert (H360 : hue_to_frequency 360 = 2 * C4).
  { unfold hue_to_frequency.
    replace (360 / 360 * 12 / 12) with 1 by lra.
    rewrite Rpower_1 by lra. lra. }
  pose proof C4_bounds. rewrite H0, H360. repeat split; lra.
Qed.

(** *** Timbre *)

(** C2. The saturation bins: [0, 0.33) is sine, [0.33, 0.67) is triangle,
    [0.67, 1.0] is square, with the five boundary values of the
    specification. *)
Theorem wave_type_bins (s : R) :
  (0 <= s < 33 / 100 -> wave_type_of s = "sine"%string) /\
  (33 / 100 <= s < 67 / 100 -> wave_type_of s = "triangle"%string) /\
  (67 / 100 <= s <= 1 -> wave_type_of s = "square"%string) /\
  wave_type_of (329 / 1000) = "sine"%string /\
  wave_type_of (33 / 100) = "triangle"%string /\
  wave_type_of (669 / 1000) = "triangle"%string /\
  wave_type_of (67 / 100) = "square"%string /\
  wave_type_of 1 = "square"%string.
Proof.
  assert (Hsine : forall x, x < 33 / 100 -> wave_type_of x = "sine"%string).
  { intros x Hx. unfold wave_type_of.
    destruct (Rlt_dec x (33 / 100)); [reflexivity | lra]. }
  assert (Htri : forall x, 33 / 100 <= x < 67 / 100 ->
                           wave_type_of x = "triangle"%string).
  { intros x Hx. unfold wave_type_of.
    destruct (Rlt_dec x (33 / 100)); [lra |].
    destruct (Rlt_dec x (67 / 100)); [reflexivity | lra]. }
  assert (Hsq : forall x, 67 / 100 <= x -> wave_type_of x = "square"%string).
  { intros x Hx. unfold wave_type_of.
    destruct (Rlt_dec x (33 / 100)); [lra |].
    destruct (Rlt_dec x (67 / 100)); [lra | reflexivity]. }
  repeat split.
  - intros H; apply Hsine; lra.
  - exact (Htri s).
  - intros H; apply Hsq; lra.
  - apply Hsine; lra.
  - apply Htri; lra.
  - apply Htri; lra.
  - apply Hsq; lra.
  - apply Hsq; lra.
Qed.

Lemma wave_type_bins_witness :
  wave_type_of (1 / 10) = "sine"%string /\
  wave_type_of (1 / 2) = "triangle"%string /\
  wave_type_of (9 / 10) = "square"%string.
Proof.
  split; [| split].
  - apply (wave_type_bins (1 / 10)). lra.
  - apply (wave_type_bins (1 / 2)). lra.
  - apply (wave_type_bins (9 / 10)). lra.
Defined.

(** *** Quantisation *)





(** *** Segments *)

(** The time axis of one slice. *)
Lemma slice_time_axis :
  linspace 0 DURATION_PER_SLICE 2205 =
  Ok (map (fun i => INR i * ((DURATION_PER_SLICE - 0) / 2205) + 0)
          (seq 0 2205)).
Proof. now rewrite linspace_ok by lia. Qed.

(** C5. With the slice duration 0.05 s, whatever the frequency and the
    waveform name (known or not), [generate_waveform] returns 2205 samples:
    [44100 * 0.05] is 2205 exactly, so [int] and [round] agree on it.  They
    are computed point by point on the 2205 instants [i * (0.05 / 2205)],
    [i = 0 .. 2204], which start at 0, are evenly spaced and stay below
    0.05. *)
Theorem slice_has_2205_samples (f : R) (w : string) :
  IZR SAMPLE_RATE * DURATION_PER_SLICE = 2205 /\
  exists (t seg : list R) (g : R -> R),
    linspace 0 DURATION_PER_SLICE (int (IZR SAMPLE_RATE * DURATION_PER_SLICE))
    = Ok t /\
    generate_waveform f DURATION_PER_SLICE w = Ok seg /\
    seg = map g t /\
    List.length seg = 2205%nat /\
    List.length t = 2205%nat /\
    forall i : nat, (i < 2205)%nat ->
      nth_error t i = Some (INR i * (DURATION_PER_SLICE / 2205)) /\
      0 <= INR i * (DURATION_PER_SLICE / 2205) < DURATION_PER_SLICE.
Proof.
  split; [apply slice_product |].
  destruct (generate_waveform_pointwise f DURATION_PER_SLICE w) as [g Hg].
  rewrite Hg, num_samples_slice, slice_time_axis. cbn [Py.bind].
  eexists _, _, g. split; [reflexivity | split; [reflexivity |]].
  split; [reflexivity |].
  split; [now rewrite !length_map, length_seq |].
  split; [now rewrite length_map, length_seq |].
  intros i Hi. split.
  - rewrite nth_error_map, nth_error_seq.
    destruct (Nat.ltb_spec i 2205) as [_ | Hge]; [| lia].
    cbn [option_map Nat.add]. f_equal. lra.
  - assert (Hlo : 0 <= INR i) by apply pos_INR.
    assert (Hhi : INR i < 2205).
    { rewrite INR_IZR_INZ. apply IZR_lt. lia. }
    unfold DURATION_PER_SLICE. split; nra.
Qed.

(** *** Assembly *)


(** *** Silence *)

Lemma fold_max_zeros (n : nat) : fold_left Rmax (repeat 0 n) 0 = 0.
Proof.
  induction n as [| n IH]; cbn [repeat fold_left]; [reflexivity |].
  rewrite Rmax_left by lra. exact IH.
Qed.

Lemma peak_of_zeros (n : nat) : Py.max (Py.abs (repeat 0 (S n))) = Ok 0.
Proof.
  unfold Py.abs. rewrite map_repeat, Rabs_R0. cbn [repeat Py.max].
  f_equal. apply fold_max_zeros.
Qed.

Lemma normalize_zeros (n : nat) : normalize (repeat 0 n) = Ok (repeat 0 n).
Proof.
  destruct n as [| n]; [reflexivity |].
  destruct (normalize_cases (repeat 0 (S n)))
    as [[_ H] | [[_ H] | (p & Hp & Hm & _)]]; try exact H.
  rewrite peak_of_zeros in Hm. inversion Hm. lra.
Qed.

Lemma quantize_zeros (n : nat) : quantize (repeat 0 n) = repeat 0%Z n.
Proof.
  unfold quantize, int16. rewrite !map_repeat. f_equal.
  rewrite Rmult_0_l, int_IZR. reflexivity.
Qed.

Lemma assemble_black : assemble [(0, 0, 0)] [] = Ok (repeat 0 2205).
Proof.
  cbn [assemble].
  destruct (slice_segment (hue_to_frequency 0) (wave_type_of 0))
    as (seg & Hseg & Hlen).
  rewrite Hseg. cbn [Py.bind app]. f_equal.
  rewrite (map_ext _ (fun _ => 0)) by (intros; lra).
  now rewrite map_const, Hlen.
Qed.

(** C7. On the input [(0, 0, 0)] the assembled signal is 2205 zeros, its
    peak is 0, normalisation takes the branch that leaves it unchanged, and
    the file written holds 2205 zeros.  More generally a signal of peak 0
    is left unchanged by normalisation, and no input makes the pipeline
    divide by zero. *)
Theorem silence_stays_silent (root_path : string) (fs : files) :
  assemble [(0, 0, 0)] [] = Ok (repeat 0 2205) /\
  Py.max (Py.abs (repeat 0 2205)) = Ok 0 /\
  normalize (repeat 0 2205) = Ok (repeat 0 2205) /\
  int_audio [(0, 0, 0)] = Ok (repeat 0%Z 2205) /\
  (exists fs' : files,
     generate_sound_from_data root_path [(0, 0, 0)] fs
     = Ok ("output.wav"%string, fs') /\
     fs' (output_path root_path) = Some (Wav 44100 (repeat 0%Z 2205))) /\
  (forall sig : list R, Py.max (Py.abs sig) = Ok 0 -> normalize sig = Ok sig) /\
  (forall drawing_data : list hsv,
     int_audio drawing_data <> Raise ZeroDivision).
Proof.
  assert (Hsamples : int_audio [(0, 0, 0)] = Ok (repeat 0%Z 2205)).
  { unfold int_audio. rewrite assemble_black. cbn [Py.bind].
    rewrite normalize_zeros. cbn [Py.bind]. now rewrite quantize_zeros. }
  split; [apply assemble_black |].
  split; [change 2205%nat with (S 2204); apply peak_of_zeros |].
  split; [apply normalize_zeros |].
  split; [exact Hsamples |].
  split; [| split].
  - eexists. unfold generate_sound_from_data. rewrite Hsamples. cbn [Py.bind].
    split; [reflexivity |].
    unfold write_wav. now rewrite String.eqb_refl.
  - intros sig Hpeak.
    destruct (normalize_cases sig)
      as [[_ H] | [[_ H] | (p & Hp & Hm & _)]]; try exact H.
    rewrite Hpeak in Hm. inversion Hm. lra.
  - intros data.
    destruct (int_audio_ok data) as (_ & sig' & _ & _ & Hi & _).
    rewrite Hi. discriminate.
Qed.

(** *** Normalisation *)

Lemma Rabs_div_pos (a p : R) : 0 < p -> Rabs (a / p) = Rabs a / p.
Proof.
  intros Hp. unfold Rdiv.
  rewrite Rabs_mult, (Rabs_pos_eq (/ p)); [reflexivity |].
  left. now apply Rinv_0_lt_compat.
Qed.

Lemma peak_of_normalized (sig : list R) (p : R) :
  0 < p -> Py.max (Py.abs sig) = Ok p ->
  Py.max (Py.abs (map (fun x => x / p) sig)) = Ok 1.
Proof.
  destruct sig as [| x xs]; [discriminate |].
  intros Hp H. cbn [Py.abs map Py.max] in *.
  inversion H as [Hm]. rewrite Hm. f_equal.
  rewrite map_map, (map_ext _ (fun y => Rabs y / p))
    by (intros; now apply Rabs_div_pos).
  rewrite <- (map_map Rabs (fun y => y / p)), Rabs_div_pos by exact Hp.
  rewrite fold_max_scale, Hm by exact Hp. field. lra.
Qed.

(** C8. Normalisation is idempotent: a non-empty signal with a non-zero
    peak is normalised to a signal of peak 1, and normalising that one
    again returns it unchanged. *)
Theorem normalize_idempotent (sig : list R) (p : R)
  (Hne : sig <> []) (Hpeak : Py.max (Py.abs sig) = Ok p) (Hnz : p <> 0) :
  exists sig' : list R,
    normalize sig = Ok sig' /\
    sig' = map (fun x => x / p) sig /\
    Py.max (Py.abs sig') = Ok 1 /\
    normalize sig' = Ok sig'.
Proof.
  pose proof (peak_nonneg sig p Hpeak) as Hp0.
  assert (Hp : 0 < p) by lra.
  exists (map (fun x => x / p) sig).
  pose proof (peak_of_normalized sig p Hp Hpeak) as Hone.
  split; [| split; [reflexivity | split; [exact Hone |]]].
  - destruct (normalize_cases sig)
      as [[He _] | [[H0 _] | (q & _ & Hq & Hn)]].
    + contradiction.
    + rewrite Hpeak in H0. inversion H0. contradiction.
    + rewrite Hpeak in Hq. inversion Hq. subst q. exact Hn.
  - destruct (normalize_cases (map (fun x => x / p) sig))
      as [[_ Hn] | [[_ Hn] | (q & _ & Hq & Hn)]]; try exact Hn.
    rewrite Hone in Hq. inversion Hq. subst q. rewrite Hn. f_equal.
    rewrite <- (map_id (map _ sig)) at 2. apply map_ext. intros a. field.
Qed.

Lemma normalize_idempotent_witness :
  exists sig' : list R,
    normalize [1; -2] = Ok sig' /\
    sig' = map (fun x => x / 2) [1; -2] /\
    Py.max (Py.abs sig') = Ok 1 /\
    normalize sig' = Ok sig'.
Proof.
  apply (normalize_idempotent [1; -2] 2).
  - discriminate.
  - cbn [Py.abs map Py.max fold_left]. f_equal.
    rewrite (Rabs_pos_eq 1), (Rabs_left (-2)) by lra.
    rewrite Rmax_right; lra.
  - lra.
Defined.

(** *** Unknown waveform names *)






(** *** Determinism *)


(** ** Further properties of the program *)

(** *** [hue_to_frequency] *)


(** X1. Shifting the hue by [d] multiplies the frequency by [2 ** (d/360)]:
    360 hue units are one octave (the frequency doubles) and 30 hue units
    one semitone. *)
Theorem hue_shift_law (h d : R) :
  hue_to_frequency (h + d) = hue_to_frequency h * Rpower 2 (d / 360) /\
  hue_to_frequency (h + 360) = 2 * hue_to_frequency h /\
  hue_to_frequency (h + 30) = hue_to_frequency h * Rpower 2 (1 / 12).
Proof.
  assert (Hshift : forall x e,
             hue_to_frequency (x + e)
             = hue_to_frequency x * Rpower 2 (e / 360)).
  { intros x e. unfold hue_to_frequency.
    replace ((x + e) / 360 * 12 / 12) with (x / 360 * 12 / 12 + e / 360)
      by lra.
    rewrite Rpower_plus. ring. }
  split; [apply Hshift | split].
  - rewrite Hshift. replace (360 / 360) with 1 by lra.
    rewrite Rpower_1 by lra. ring.
  - rewrite Hshift. f_equal. f_equal. lra.
Qed.








(** X4. The mapping is calibrated on concert pitch: the frequency is
    [440 * 2 ** ((hue - 270) / 360)], so hue 270 is A4 = 440 Hz exactly
    and hue 180 is C4 times the square root of 2. *)
Theorem hue_to_frequency_from_A4 (h : R) :
  hue_to_frequency h = A4 * Rpower 2 ((h - 270) / 360) /\
  hue_to_frequency 270 = 440 /\
  hue_to_frequency 180 = C4 * R_sqrt.sqrt 2.
Proof.
  assert (Hform : forall x,
             hue_to_frequency x = A4 * Rpower 2 ((x - 270) / 360)).
  { intros x. unfold hue_to_frequency, C4.
    rewrite Rmult_assoc, <- Rpower_plus. f_equal. f_equal. lra. }
  split; [apply Hform | split].
  - rewrite Hform. replace ((270 - 270) / 360) with 0 by lra.
    rewrite Rpower_O by lra. unfold A4. lra.
  - unfold hue_to_frequency. f_equal.
    replace (180 / 360 * 12 / 12) with (/ 2) by lra.
    apply Rpower_sqrt. lra.
Qed.

(** *** [generate_waveform] *)
























(** *** The loop of [generate_sound_from_data] *)











(** *** Brightness is relative *)

Lemma fold_max_scale_mult (c : R) (xs : list R) (x : R) :
  0 < c ->
  fold_left Rmax (map (fun y => y * c) xs) (x * c) = fold_left Rmax xs x * c.
Proof.
  intros Hc. revert x.
  induction xs as [| y ys IH]; intros x; cbn [map fold_left].
  - reflexivity.
  - rewrite <- IH. f_equal.
    rewrite !(Rmult_comm _ c). apply RmaxRmult. lra.
Qed.

Lemma peak_of_scaled (c : R) (sig : list R) (p : R) :
  0 < c -> Py.max (Py.abs sig) = Ok p ->
  Py.max (Py.abs (map (fun y => y * c) sig)) = Ok (p * c).
Proof.
  destruct sig as [| x xs]; [discriminate |].
  intros Hc H. cbn [Py.abs map Py.max] in *. inversion H as [Hm].
  rewrite Hm. f_equal.
  rewrite map_map, (map_ext _ (fun y => Rabs y * c))
    by (intros; rewrite Rabs_mult, (Rabs_pos_eq c) by lra; reflexivity).
  rewrite <- (map_map Rabs (fun y => y * c)).
  rewrite Rabs_mult, (Rabs_pos_eq c) by lra.
  rewrite fold_max_scale_mult by exact Hc. now rewrite Hm.
Qed.

(** Normalisation cancels a positive gain. *)
Lemma normalize_gain (c : R) (sig : list R) :
  0 < c -> normalize (map (fun y => y * c) sig) = normalize sig.
Proof.
  intros Hc.
  destruct (normalize_cases sig)
    as [[-> Hn] | [[H0 Hn] | (p & Hp & Hmax & Hn)]].
  - reflexivity.
  - assert (Hz : map (fun y => y * c) sig = sig).
    { rewrite <- (map_id sig) at 2. apply map_ext_in. intros y Hy.
      destruct (peak_spec sig 0 H0) as [Hb _]. specialize (Hb y Hy).
      assert (y = 0).
      { destruct (Rcase_abs y) as [Hneg | Hpos];
          [rewrite Rabs_left in Hb by exact Hneg
          | rewrite Rabs_right in Hb by exact Hpos]; lra. }
      subst y. lra. }
    now rewrite Hz.
  - pose proof (peak_of_scaled c sig p Hc Hmax) as Hmax'.
    destruct (normalize_cases (map (fun y => y * c) sig))
      as [[He _] | [[H0 _] | (q & Hq & Hmq & Hnq)]].
    + rewrite He in Hmax'. discriminate.
    + rewrite Hmax' in H0. inversion H0. nra.
    + rewrite Hmax' in Hmq. inversion Hmq. subst q.
      rewrite Hnq, Hn. f_equal. rewrite map_map.
      apply map_ext. intros y. field. lra.
Qed.

Lemma assemble_gain (c : R) (drawing_data : list hsv) (acc sig : list R) :
  assemble drawing_data acc = Ok sig ->
  assemble (map (fun x : hsv => (fst x, c * snd x)) drawing_data)
           (map (fun y => y * c) acc)
  = Ok (map (fun y => y * c) sig).
Proof.
  revert acc. induction drawing_data as [| [[h s] v] rest IH]; intros acc Hsig.
  - cbn [assemble map] in *. now inversion Hsig.
  - cbn [assemble map fst snd] in *.
    destruct (generate_waveform (hue_to_frequency h) DURATION_PER_SLICE
                (wave_type_of s)) as [seg | e];
      cbn [Py.bind] in *; [| discriminate].
    apply IH in Hsig. rewrite <- Hsig. f_equal.
    rewrite map_app, map_map. f_equal.
    apply map_ext. intros x. ring.
Qed.

(** X13. Only relative brightness is audible: multiplying the value of
    every colour sample by the same factor [c > 0] leaves the written
    samples unchanged, because the final normalisation cancels the gain. *)
Theorem brightness_is_relative (c : R) (drawing_data : list hsv)
  (Hc : 0 < c) :
  int_audio (map (fun x : hsv => (fst x, c * snd x)) drawing_data)
  = int_audio drawing_data.
Proof.
  destruct (assemble_ok drawing_data []) as (sig & Hsig & _).
  pose proof (assemble_gain c drawing_data [] sig Hsig) as Hg.
  cbn [map] in Hg. unfold int_audio. rewrite Hsig, Hg. cbn [Py.bind].
  now rewrite normalize_gain by exact Hc.
Qed.

Lemma brightness_is_relative_witness :
  int_audio (map (fun x : hsv => (fst x, 1 / 10 * snd x))
               [(0, 1 / 10, 1); (180, 1 / 2, 1 / 2)])
  = int_audio [(0, 1 / 10, 1); (180, 1 / 2, 1 / 2)].
Proof.
  apply (brightness_is_relative (1 / 10)). lra.
Defined.

(** *** Quantisation *)

Lemma int_opp (y : R) : int (- y) = (- int y)%Z.
Proof.
  unfold int.
  destruct (Rle_dec 0 (- y)) as [Hn | Hn], (Rle_dec 0 y) as [Hp | Hp].
  - assert (y = 0) by lra. subst y. rewrite Ropp_0.
    rewrite (Int_part_IZR 0). reflexivity.
  - lia.
  - now rewrite Ropp_involutive.
  - lra.
Qed.

Lemma Int_part_le (x y : R) : x <= y -> (Int_part x <= Int_part y)%Z.
Proof.
  intros Hxy.
  destruct (base_Int_part x) as [Hx _], (base_Int_part y) as [_ Hy].
  assert (Int_part x < Int_part y + 1)%Z
    by (apply lt_IZR; rewrite plus_IZR; lra).
  lia.
Qed.

Lemma int_le (x y : R) : x <= y -> (int x <= int y)%Z.
Proof.
  intros Hxy. unfold int.
  destruct (Rle_dec 0 x) as [Hx | Hx], (Rle_dec 0 y) as [Hy | Hy].
  - now apply Int_part_le.
  - lra.
  - assert (Hnx : 0 <= - x) by lra.
    pose proof (Int_part_nonneg (- x) Hnx).
    pose proof (Int_part_nonneg y Hy). lia.
  - assert (Hyx : - y <= - x) by lra.
    pose proof (Int_part_le (- y) (- x) Hyx). lia.
Qed.

(** X14. Quantisation is odd on normalised signals: inverting the polarity
    of a signal of magnitude at most 1 negates every stored sample
    exactly. *)
Theorem quantize_is_odd (sig : list R)
  (Hsig : Forall (fun x => Rabs x <= 1) sig) :
  quantize (map Ropp sig) = map Z.opp (quantize sig).
Proof.
  unfold quantize, int16. rewrite !map_map.
  apply map_ext_in. intros x Hx.
  rewrite Forall_forall in Hsig. specialize (Hsig x Hx).
  pose proof (int_scaled_range x Hsig) as Hr.
  replace (- x * 32767) with (- (x * 32767)) by lra.
  rewrite int_opp, !wrap16_id by lia. reflexivity.
Qed.

Lemma quantize_is_odd_witness :
  quantize (map Ropp [1 / 4; -1; 0]) = map Z.opp (quantize [1 / 4; -1; 0]).
Proof.
  apply (quantize_is_odd [1 / 4; -1; 0]).
  apply Forall_cons; [rewrite Rabs_pos_eq; lra |].
  apply Forall_cons; [rewrite Rabs_left; lra |].
  apply Forall_cons; [rewrite Rabs_R0; lra | apply Forall_nil].
Defined.

(** X15. Quantisation keeps the order of normalised samples: for [x <= y]
    of magnitude at most 1, the stored sample of [x] is at most that of
    [y]. *)
Theorem quantize_is_monotone (x y : R)
  (Hx : Rabs x <= 1) (Hy : Rabs y <= 1) (Hxy : x <= y) :
  exists qx qy : Z,
    quantize [x] = [qx] /\ quantize [y] = [qy] /\ (qx <= qy)%Z.
Proof.
  pose proof (int_scaled_range x Hx). pose proof (int_scaled_range y Hy).
  exists (int (x * 32767)), (int (y * 32767)).
  unfold quantize, int16. cbn [map]. rewrite !wrap16_id by lia.
  split; [reflexivity | split; [reflexivity |]].
  apply int_le. lra.
Qed.

Lemma quantize_is_monotone_witness :
  exists qx qy : Z,
    quantize [-1 / 2] = [qx] /\ quantize [1 / 4] = [qy] /\ (qx <= qy)%Z.
Proof.
  apply (quantize_is_monotone (-1 / 2) (1 / 4)).
  - rewrite Rabs_left; lra.
  - rewrite Rabs_pos_eq; lra.
  - lra.
Defined.

(** ** The route [/generate-sound] *)

Import Web.









Lemma falsy_values (v : json) :
  truthy v = false <->
  v = JNull \/ v = JBool false \/ v = JNum 0 \/ v = JStr "" \/
  v = JArr [] \/ v = JObj [].
Proof.
  split.
  - destruct v as [| b | x | s | items | fields]; cbn [truthy]; intros H.
    + auto.
    + subst b. auto.
    + destruct (Req_dec_T x 0) as [-> | _]; [auto 6 | discriminate].
    + apply negb_false_iff, String.eqb_eq in H. subst s. auto 6.
    + destruct items; [auto 6 | discriminate].
    + destruct fields; [auto 7 | discriminate].
  - intros [-> | [-> | [-> | [-> | [-> | ->]]]]]; try reflexivity.
    cbn [truthy]. destruct (Req_dec_T 0 0) as [_ | H]; [reflexivity | lra].
Qed.

Lemma rejected_iff (root_path : string) (request_json : option json)
  (fs : files) :
  status (fst (handle_drawing_data root_path request_json fs)) = 400%Z <->
  exists data drawing_data : json,
    request_json = Some data /\
    get data "drawing_data" = Return drawing_data /\
    truthy drawing_data = false.
Proof.
  unfold handle_drawing_data. split.
  - destruct request_json as [data |]; cbn [and_then fst status];
      [| discriminate].
    destruct (get data "drawing_data") as [dd | e] eqn:Hget;
      cbn [and_then fst status]; [| discriminate].
    destruct (truthy dd) eqn:Ht; cbn [negb fst status].
    + destruct (generate_sound_from_json root_path dd fs) as [[name fs'] | e];
        cbn [and_then fst status]; discriminate.
    + intros _. exists data, dd. auto.
  - intros (data & dd & -> & Hget & Ht). cbn [and_then].
    rewrite Hget. cbn [and_then]. rewrite Ht. reflexivity.
Qed.

(** X16. The route answers 400 exactly when the body is an object whose
    [drawing_data] is missing or falsy, that is absent, [null], [false],
    0, an empty string, an empty list or an empty object. *)
Theorem request_without_data_is_rejected (root_path : string)
  (request_json : option json) (fs : files) :
  (status (fst (handle_drawing_data root_path request_json fs)) = 400%Z <->
   exists data drawing_data : json,
     request_json = Some data /\
     get data "drawing_data" = Return drawing_data /\
     truthy drawing_data = false) /\
  (forall v : json,
     truthy v = false <->
     v = JNull \/ v = JBool false \/ v = JNum 0 \/ v = JStr "" \/
     v = JArr [] \/ v = JObj []) /\
  (forall fields : list (string * json),
     find (fun kv => (fst kv =? "drawing_data")%string) fields = None ->
     get (JObj fields) "drawing_data" = Return JNull).
Proof.
  split; [apply rejected_iff | split; [apply falsy_values |]].
  intros fields Hfind. cbn [get]. now rewrite Hfind.
Qed.

(** X17. A request without a JSON body, or whose body is not an object,
    is answered 500 (the exception is caught by the route), and nothing is
    written. *)
Theorem request_without_object_fails (root_path : string) (fs : files) :
  handle_drawing_data root_path None fs
  = (Response (Failure BadRequest) 500, fs) /\
  forall data : json,
    (forall fields, data <> JObj fields) ->
    handle_drawing_data root_path (Some data) fs
    = (Response (Failure AttributeError) 500, fs).
Proof.
  split; [reflexivity |].
  intros data Hd. unfold handle_drawing_data. cbn [and_then].
  destruct data; try reflexivity.
  exfalso. eapply Hd. reflexivity.
Qed.







